(** * ATM session controller (project.cpp)

    A shallow embedding of [ATMController], of the three collaborator
    interfaces it is built on ([IBankGateway], [ICashDispenser],
    [ICardReader]) and of the in-memory mocks that [main] wires together,
    followed by the properties of the session logic.

    Conventions.
    - C++ [int] is modelled as [Z]; the two places that compute a new
      [int] ([+=], [-=]) go through [wrap], the 32-bit two's complement
      reading of the result.
    - [std::string] is [string]; [std::map<string, T>] is [gmap string T].
    - A member function that may throw is a computation [Comp S A]: it
      takes the object's state and yields an outcome (a returned value or
      a thrown exception) together with the state the object is left in.
      A throw keeps every assignment made before it, as in C++.
    - The controller holds references to its collaborators.  A controller
      value therefore carries the current state of the three referenced
      objects, and every call through a reference is recorded in a ghost
      history [calls], which is what ordering properties are stated on. *)

From Stdlib Require Import ZArith List Lia.
From stdpp Require Import gmap strings list.

Local Open Scope string_scope.
Local Open Scope Z_scope.

(** ** Exceptions and computations *)

(** The two exception classes that occur: [std::runtime_error], thrown by
    the controller and by the dispenser mock, and [std::out_of_range],
    thrown by [std::map::at]. Both carry their [what()] message. *)
Inductive exn : Type :=
| runtime_error (what : string)
| out_of_range (what : string).

Inductive outcome (A : Type) : Type :=
| Returns (a : A)
| Throws (e : exn).
Arguments Returns {A} a.
Arguments Throws {A} e.

Definition Comp (S A : Type) : Type := S -> outcome A * S.

Definition ret {S A} (a : A) : Comp S A := fun s => (Returns a, s).

Definition throw {S A} (e : exn) : Comp S A := fun s => (Throws e, s).

Definition bind {S A B} (m : Comp S A) (k : A -> Comp S B) : Comp S B :=
  fun s =>
    match m s with
    | (Returns a, s') => k a s'
    | (Throws e, s') => (Throws e, s')
    end.

Definition gets {S A} (f : S -> A) : Comp S A := fun s => (Returns (f s), s).

Definition modify {S} (f : S -> S) : Comp S unit := fun s => (Returns tt, f s).

(** [try { m } catch (...) { }]: the outcome becomes a value. *)
Definition catch_all {S A} (m : Comp S A) : Comp S (outcome A) :=
  fun s => let (o, s') := m s in (Returns o, s').

Declare Scope comp_scope.
Delimit Scope comp_scope with comp.
Notation "x <- m ;; k" := (bind m (fun x => k))
  (at level 100, m at next level, right associativity) : comp_scope.
Notation "m ;; k" := (bind m (fun _ => k))
  (at level 100, right associativity) : comp_scope.
Local Open Scope comp_scope.

(** ** Machine integers *)

Definition INT_MIN : Z := - 2 ^ 31.
Definition INT_MAX : Z := 2 ^ 31 - 1.

(** The value an [int] holds after an arithmetic result [z]. *)
Definition wrap (z : Z) : Z := (z + 2 ^ 31) mod 2 ^ 32 - 2 ^ 31.

(** [std::string::empty]. *)
Definition str_empty (s : string) : bool :=
  match s with
  | EmptyString => true
  | String _ _ => false
  end.

(** ** Collaborator interfaces *)

Module IBankGateway.
Class t (B : Type) : Type := {
  validatePin : string -> string -> Comp B bool;
  getBalance : string -> Comp B Z;
  debit : string -> Z -> Comp B unit;
  credit : string -> Z -> Comp B unit
}.
End IBankGateway.

Module ICashDispenser.
Class t (D : Type) : Type := {
  hasCash : Z -> Comp D bool;
  dispenseCash : Z -> Comp D unit
}.
End ICashDispenser.

Module ICardReader.
Class t (R : Type) : Type := {
  readCard : Comp R string;
  ejectCard : Comp R unit
}.
End ICardReader.

(** A call made through one of the three references. *)
Inductive Call : Type :=
| CValidatePin (cardNumber pin : string)
| CGetBalance (accountId : string)
| CDebit (accountId : string) (amount : Z)
| CCredit (accountId : string) (amount : Z)
| CHasCash (amount : Z)
| CDispenseCash (amount : Z)
| CReadCard
| CEjectCard.

(** ** The controller *)

Module ATMController.

Record t (B D R : Type) : Type := Build {
  bank : B;
  dispenser : D;
  reader : R;
  cardNumber : string;
  authenticated : bool;
  selectedAccount : string;
  calls : list Call
}.
Arguments Build {B D R}.
Arguments bank {B D R}.
Arguments dispenser {B D R}.
Arguments reader {B D R}.
Arguments cardNumber {B D R}.
Arguments authenticated {B D R}.
Arguments selectedAccount {B D R}.
Arguments calls {B D R}.

(** The public member functions, as requests a driver can issue. *)
Inductive Op : Type :=
| InsertCard
| EnterPin (pin : string)
| SelectAccount (acctId : string)
| GetBalance
| Deposit (amount : Z)
| Withdraw (amount : Z)
| EjectCard.

Inductive Value : Type :=
| VVoid
| VBool (b : bool)
| VInt (n : Z).

Section Methods.
Context {B D R : Type}.
Context `{!IBankGateway.t B, !ICashDispenser.t D, !ICardReader.t R}.

Abbreviation atm := (t B D R).

(** The constructor: references bound, [authenticated = false], both
    strings default-constructed. *)
Definition make (b : B) (d : D) (r : R) : atm :=
  Build b d r "" false "" [].

Definition set_cardNumber (c : string) : Comp atm unit :=
  modify (fun s => Build (bank s) (dispenser s) (reader s)
                         c (authenticated s) (selectedAccount s) (calls s)).

Definition set_authenticated (a : bool) : Comp atm unit :=
  modify (fun s => Build (bank s) (dispenser s) (reader s)
                         (cardNumber s) a (selectedAccount s) (calls s)).

Definition set_selectedAccount (a : string) : Comp atm unit :=
  modify (fun s => Build (bank s) (dispenser s) (reader s)
                         (cardNumber s) (authenticated s) a (calls s)).

(** Calls through the references [bank], [dispenser] and [reader]:
    the callee runs on the referenced object, which keeps whatever
    state the callee leaves, and the call is appended to the history. *)
Definition call_bank {A} (c : Call) (m : Comp B A) : Comp atm A :=
  fun s =>
    let (o, b') := m (bank s) in
    (o, Build b' (dispenser s) (reader s)
              (cardNumber s) (authenticated s) (selectedAccount s)
              (calls s ++ [c])).

Definition call_dispenser {A} (c : Call) (m : Comp D A) : Comp atm A :=
  fun s =>
    let (o, d') := m (dispenser s) in
    (o, Build (bank s) d' (reader s)
              (cardNumber s) (authenticated s) (selectedAccount s)
              (calls s ++ [c])).

Definition call_reader {A} (c : Call) (m : Comp R A) : Comp atm A :=
  fun s =>
    let (o, r') := m (reader s) in
    (o, Build (bank s) (dispenser s) r'
              (cardNumber s) (authenticated s) (selectedAccount s)
              (calls s ++ [c])).

Definition insertCard : Comp atm unit :=
  c <- call_reader CReadCard ICardReader.readCard ;;
  set_cardNumber c ;;
  set_authenticated false ;;
  set_selectedAccount "".

Definition enterPin (pin : string) : Comp atm bool :=
  card <- gets cardNumber ;;
  if str_empty card then throw (runtime_error "No card inserted") else
  ok <- call_bank (CValidatePin card pin) (IBankGateway.validatePin card pin) ;;
  set_authenticated ok ;;
  gets authenticated.

Definition selectAccount (acctId : string) : Comp atm unit :=
  auth <- gets authenticated ;;
  if negb auth then throw (runtime_error "Not authenticated") else
  set_selectedAccount acctId.

Definition getBalance : Comp atm Z :=
  acct <- gets selectedAccount ;;
  if str_empty acct then throw (runtime_error "No account selected") else
  call_bank (CGetBalance acct) (IBankGateway.getBalance acct).

Definition deposit (amount : Z) : Comp atm unit :=
  acct <- gets selectedAccount ;;
  if str_empty acct then throw (runtime_error "No account selected") else
  if amount <=? 0 then throw (runtime_error "Invalid deposit amount") else
  call_bank (CCredit acct amount) (IBankGateway.credit acct amount).

Definition withdraw (amount : Z) : Comp atm unit :=
  acct <- gets selectedAccount ;;
  if str_empty acct then throw (runtime_error "No account selected") else
  if amount <=? 0 then throw (runtime_error "Invalid withdraw amount") else
  bal <- call_bank (CGetBalance acct) (IBankGateway.getBalance acct) ;;
  if amount >? bal then throw (runtime_error "Insufficient funds") else
  enough <- call_dispenser (CHasCash amount) (ICashDispenser.hasCash amount) ;;
  if negb enough then throw (runtime_error "ATM has insufficient cash") else
  call_bank (CDebit acct amount) (IBankGateway.debit acct amount) ;;
  call_dispenser (CDispenseCash amount) (ICashDispenser.dispenseCash amount).

Definition ejectCard : Comp atm unit :=
  call_reader CEjectCard ICardReader.ejectCard ;;
  set_cardNumber "" ;;
  set_authenticated false ;;
  set_selectedAccount "".

(** One public member call, and the value or exception a caller
    observes. *)
Definition perform (op : Op) : Comp atm Value :=
  match op with
  | InsertCard => insertCard ;; ret VVoid
  | EnterPin pin => b <- enterPin pin ;; ret (VBool b)
  | SelectAccount acctId => selectAccount acctId ;; ret VVoid
  | GetBalance => n <- getBalance ;; ret (VInt n)
  | Deposit amount => deposit amount ;; ret VVoid
  | Withdraw amount => withdraw amount ;; ret VVoid
  | EjectCard => ejectCard ;; ret VVoid
  end.

(** A driver that issues calls one after the other and carries on
    after an exception (it catches it); the controller it ends with. *)
Fixpoint run (ops : list Op) (s : atm) : atm :=
  match ops with
  | [] => s
  | op :: ops' => run ops' (snd (perform op s))
  end.

End Methods.

End ATMController.

(** ** The mocks *)

Module MockBankGateway.

Record t : Type := Build {
  pins : gmap string string;
  balances : gmap string Z
}.

(** The constructor fills both maps with one entry. *)
Definition make : t :=
  Build (<["CARD-1234" := "4321"]> ∅) (<["ACC-111" := 100]> ∅).

Definition validatePin (cardNumber pin : string) : Comp t bool :=
  fun b =>
    (Returns match pins b !! cardNumber with
             | Some p => bool_decide (p = pin)
             | None => false
             end, b).

(** [balances.at(accountId)]; the message of the exception is the one
    libstdc++ gives. *)
Definition getBalance (accountId : string) : Comp t Z :=
  fun b =>
    match balances b !! accountId with
    | Some bal => (Returns bal, b)
    | None => (Throws (out_of_range "map::at"), b)
    end.

(** [balances[accountId]] value-initialises a missing entry to 0 before
    the compound assignment reads it. *)
Definition debit (accountId : string) (amount : Z) : Comp t unit :=
  modify (fun b =>
            Build (pins b)
                  (<[accountId := wrap (default 0 (balances b !! accountId) - amount)]>
                     (balances b))).

Definition credit (accountId : string) (amount : Z) : Comp t unit :=
  modify (fun b =>
            Build (pins b)
                  (<[accountId := wrap (default 0 (balances b !! accountId) + amount)]>
                     (balances b))).

#[global] Instance gateway : IBankGateway.t t :=
  {| IBankGateway.validatePin := validatePin;
     IBankGateway.getBalance := getBalance;
     IBankGateway.debit := debit;
     IBankGateway.credit := credit |}.

End MockBankGateway.

Module MockCashDispenser.

Record t : Type := Build { cashOnHand : Z }.

Definition make : t := Build 200.

Definition hasCash (amount : Z) : Comp t bool :=
  gets (fun d => amount <=? cashOnHand d).

Definition dispenseCash (amount : Z) : Comp t unit :=
  cash <- gets cashOnHand ;;
  if amount >? cash then throw (runtime_error "Not enough ATM cash") else
  modify (fun d => Build (wrap (cashOnHand d - amount))).

#[global] Instance dispenser : ICashDispenser.t t :=
  {| ICashDispenser.hasCash := hasCash;
     ICashDispenser.dispenseCash := dispenseCash |}.

End MockCashDispenser.

Module MockCardReader.

(** The reader mock has no data members. *)
Inductive t : Type := Build.

Definition make : t := Build.

Definition readCard : Comp t string := ret "CARD-1234".

Definition ejectCard : Comp t unit := ret tt.

#[global] Instance reader : ICardReader.t t :=
  {| ICardReader.readCard := readCard;
     ICardReader.ejectCard := ejectCard |}.

End MockCardReader.

(** ** The driver *)

Module Main.

Abbreviation atm :=
  (ATMController.t MockBankGateway.t MockCashDispenser.t MockCardReader.t).

(** [ATMController atm(bank, disp, reader)] over freshly constructed mocks. *)
Definition fresh : atm :=
  ATMController.make MockBankGateway.make MockCashDispenser.make MockCardReader.make.

(** What the assertions of [main] look at. *)
Record Observed : Type := Build {
  wrongPin : bool;
  rightPin : bool;
  balance0 : Z;
  balance1 : Z;
  balance2 : Z;
  overdraw : outcome unit
}.

(** The calls of [main] in order, up to and including [ejectCard]. *)
Definition script : Comp atm Observed :=
  ATMController.insertCard ;;
  p0 <- ATMController.enterPin "0000" ;;
  p1 <- ATMController.enterPin "4321" ;;
  ATMController.selectAccount "ACC-111" ;;
  b0 <- ATMController.getBalance ;;
  ATMController.deposit 50 ;;
  b1 <- ATMController.getBalance ;;
  ATMController.withdraw 70 ;;
  b2 <- ATMController.getBalance ;;
  r <- catch_all (ATMController.withdraw 200) ;;
  ATMController.ejectCard ;;
  ret (Build p0 p1 b0 b1 b2 r).

Definition threw {A} (o : outcome A) : bool :=
  match o with
  | Returns _ => false
  | Throws _ => true
  end.

(** The six [assert]s. *)
Definition asserts (o : Observed) : bool :=
  negb (wrongPin o) && rightPin o
  && (balance0 o =? 100) && (balance1 o =? 150) && (balance2 o =? 80)
  && threw (overdraw o).

(** The exit status: [Some 0] when every assertion holds and no
    exception escapes, [None] when the process is aborted. *)
Definition main : option Z :=
  match script fresh with
  | (Returns o, _) => if asserts o then Some 0 else None
  | (Throws _, _) => None
  end.

End Main.

(** ** The error kinds of the session logic, by the exception they are *)

Definition NoCardInserted : exn := runtime_error "No card inserted".
Definition NotAuthenticated : exn := runtime_error "Not authenticated".
Definition NoAccountSelected : exn := runtime_error "No account selected".
Definition InvalidAmount (operation : string) : exn :=
  runtime_error ("Invalid " +:+ operation +:+ " amount").
Definition InsufficientFunds : exn := runtime_error "Insufficient funds".
Definition InsufficientCash : exn := runtime_error "ATM has insufficient cash".
(** What the bank mock raises for an account it has no entry for. *)
Definition UnknownAccount : exn := out_of_range "map::at".

(** The session: the three data members a card cycle sets and clears. *)
Definition session {B D R} (s : ATMController.t B D R) : string * bool * string :=
  (ATMController.cardNumber s, ATMController.authenticated s,
   ATMController.selectedAccount s).

Definition Idle : string * bool * string := ("", false, "").

(** The calls made through the references since [s]. *)
Definition new_calls {B D R} (s s' : ATMController.t B D R) : list Call :=
  drop (length (ATMController.calls s)) (ATMController.calls s').

(** A selected account is only ever there for an authenticated session. *)
Definition account_implies_authenticated {B D R} (s : ATMController.t B D R) : Prop :=
  ATMController.selectedAccount s <> "" -> ATMController.authenticated s = true.

(** Calls that cannot make [selectedAccount] non-empty. *)
Definition selects_nothing (op : ATMController.Op) : bool :=
  match op with
  | ATMController.SelectAccount acctId => str_empty acctId
  | _ => true
  end.

(** ** Sessions used as examples *)

(** Card in, PIN accepted, ACC-111 selected. *)
Definition selected : Main.atm :=
  ATMController.run
    [ATMController.InsertCard; ATMController.EnterPin "4321";
     ATMController.SelectAccount "ACC-111"]
    Main.fresh.

(** Card in and PIN accepted, no account selected yet. *)
Definition signed_in : Main.atm :=
  ATMController.run
    [ATMController.InsertCard; ATMController.EnterPin "4321"] Main.fresh.

(** Card in, PIN accepted, and an account the bank does not know selected. *)
Definition selected_unknown : Main.atm :=
  ATMController.run
    [ATMController.InsertCard; ATMController.EnterPin "4321";
     ATMController.SelectAccount "ACC-999"]
    Main.fresh.

(** ** Reading the call history *)

(** The account a call to the bank names. *)
Definition account_of (c : Call) : option string :=
  match c with
  | CGetBalance a => Some a
  | CDebit a _ => Some a
  | CCredit a _ => Some a
  | _ => None
  end.

(** The amount a call to the bank or to the dispenser carries. *)
Definition amount_of (c : Call) : option Z :=
  match c with
  | CDebit _ n => Some n
  | CCredit _ n => Some n
  | CHasCash n => Some n
  | CDispenseCash n => Some n
  | _ => None
  end.

(** ** Proof automation *)

Ltac atm_unfold :=
  unfold ATMController.perform, ATMController.insertCard,
    ATMController.enterPin, ATMController.selectAccount,
    ATMController.getBalance, ATMController.deposit,
    ATMController.withdraw, ATMController.ejectCard,
    ATMController.set_cardNumber, ATMController.set_authenticated,
    ATMController.set_selectedAccount, ATMController.call_bank,
    ATMController.call_dispenser, ATMController.call_reader,
    bind, ret, throw, gets, modify in *.

(** Split on the innermost test or collaborator result the goal depends on. *)
Ltac atm_case :=
  match goal with
  | |- context [match ?c with _ => _ end] =>
      lazymatch c with
      | context [match _ with _ => _ end] => fail
      | _ => destruct c as [] eqn:?
      end
  end; cbn [fst snd] in *.

Ltac atm_cases := atm_unfold; cbn [fst snd] in *; repeat atm_case; simpl in *.

(** ** Machine integers and strings *)

Lemma wrap_in_range (z : Z) : INT_MIN <= z <= INT_MAX -> wrap z = z.
Proof.
  unfold wrap, INT_MIN, INT_MAX. intros Hz. rewrite Z.mod_small; lia.
Qed.

Lemma str_empty_spec (a : string) : str_empty a = true <-> a = "".
Proof. destruct a; simpl; split; congruence. Qed.

(** ** The controller over any collaborators *)

Section Generic.
Context {B D R : Type}.
Context `{!IBankGateway.t B, !ICashDispenser.t D, !ICardReader.t R}.

Abbreviation atm := (ATMController.t B D R).

(** *** Failures and the session *)

(** C8. Whatever member function is called and whatever the
    collaborators do, a call that ends in an exception leaves
    [cardNumber], [authenticated] and [selectedAccount] as they were.
    The one unsuccessful outcome that is not an exception, [enterPin]
    returning false, leaves [authenticated] false and keeps the card
    (and the selected account). *)
Theorem failure_keeps_session (op : ATMController.Op) (s : atm) :
  let s' := snd (ATMController.perform op s) in
  match fst (ATMController.perform op s) with
  | Throws _ => session s' = session s
  | Returns (ATMController.VBool false) =>
      ATMController.authenticated s' = false /\
      ATMController.cardNumber s' = ATMController.cardNumber s /\
      ATMController.selectedAccount s' = ATMController.selectedAccount s
  | Returns _ => True
  end.
Proof.
  destruct op; atm_cases; auto.
Qed.

(** *** Amount checks come after the account check *)

Lemma deposit_nonpositive (s : atm) (amount : Z) :
  ATMController.selectedAccount s <> "" -> amount <= 0 ->
  ATMController.deposit amount s = (Throws (InvalidAmount "deposit"), s).
Proof.
  intros Hsel Hle. atm_cases; try reflexivity.
  - apply str_empty_spec in Heqb. contradiction.
  - apply Z.leb_gt in Heqb0. lia.
Qed.

Lemma withdraw_nonpositive (s : atm) (amount : Z) :
  ATMController.selectedAccount s <> "" -> amount <= 0 ->
  ATMController.withdraw amount s = (Throws (InvalidAmount "withdraw"), s).
Proof.
  intros Hsel Hle. atm_unfold. cbn [fst snd].
  destruct (str_empty (ATMController.selectedAccount s)) eqn:He.
  - apply str_empty_spec in He. contradiction.
  - destruct (amount <=? 0) eqn:Hz; [reflexivity | apply Z.leb_gt in Hz; lia].
Qed.

Lemma no_account_selected (s : atm) :
  ATMController.selectedAccount s = "" ->
  ATMController.getBalance s = (Throws NoAccountSelected, s) /\
  (forall amount, ATMController.deposit amount s = (Throws NoAccountSelected, s)) /\
  (forall amount, ATMController.withdraw amount s = (Throws NoAccountSelected, s)).
Proof.
  intros Hsel. atm_unfold. rewrite Hsel. simpl. auto.
Qed.

(** C2, as amended. With an account selected, [deposit(-5)] and
    [withdraw(0)] both fail with InvalidAmount and change nothing,
    whatever the card, the authentication flag, the account's balance
    or the collaborators are. *)
Theorem invalid_amount_once_selected (s : atm) :
  ATMController.selectedAccount s <> "" ->
  ATMController.deposit (-5) s = (Throws (InvalidAmount "deposit"), s) /\
  ATMController.withdraw 0 s = (Throws (InvalidAmount "withdraw"), s).
Proof.
  intros Hsel. split.
  - apply deposit_nonpositive; [assumption | lia].
  - apply withdraw_nonpositive; [assumption | lia].
Qed.

(** *** The empty account identifier *)

Lemma selects_nothing_keeps_empty (op : ATMController.Op) (s : atm) :
  selects_nothing op = true ->
  ATMController.selectedAccount s = "" ->
  ATMController.selectedAccount (snd (ATMController.perform op s)) = "".
Proof.
  destruct op; simpl; intros Hop Hsel; atm_cases; auto.
  apply str_empty_spec in Hop. assumption.
Qed.

Lemma run_keeps_empty (ops : list ATMController.Op) (s : atm) :
  forallb selects_nothing ops = true ->
  ATMController.selectedAccount s = "" ->
  ATMController.selectedAccount (ATMController.run ops s) = "".
Proof.
  revert s. induction ops as [|op ops IH]; simpl; intros s Hops Hsel.
  - assumption.
  - apply andb_prop in Hops as [Hop Hops].
    apply IH; [assumption|]. apply selects_nothing_keeps_empty; assumption.
Qed.

Lemma selectAccount_unauthenticated (s : atm) (acctId : string) :
  ATMController.authenticated s = false ->
  ATMController.selectAccount acctId s = (Throws NotAuthenticated, s).
Proof.
  intros Hauth. atm_unfold. rewrite Hauth. reflexivity.
Qed.

(** C9. In an authenticated session [selectAccount("")] returns
    normally and changes nothing but [selectedAccount], which it makes
    empty; from then on, across any calls that select no non-empty
    account, [getBalance], [deposit] and [withdraw] fail with
    NoAccountSelected and change nothing. *)
Theorem empty_account_is_no_account (s : atm) (ops : list ATMController.Op) :
  ATMController.authenticated s = true ->
  forallb selects_nothing ops = true ->
  let s0 := snd (ATMController.selectAccount "" s) in
  let s1 := ATMController.run ops s0 in
  fst (ATMController.selectAccount "" s) = Returns tt /\
  ATMController.selectedAccount s0 = "" /\
  ATMController.getBalance s1 = (Throws NoAccountSelected, s1) /\
  (forall amount, ATMController.deposit amount s1 = (Throws NoAccountSelected, s1)) /\
  (forall amount, ATMController.withdraw amount s1 = (Throws NoAccountSelected, s1)).
Proof.
  intros Hauth Hops.
  assert (Hret : ATMController.selectAccount "" s
                 = (Returns tt,
                    ATMController.Build (ATMController.bank s)
                      (ATMController.dispenser s) (ATMController.reader s)
                      (ATMController.cardNumber s) (ATMController.authenticated s)
                      "" (ATMController.calls s))).
  { destruct s; simpl in Hauth; subst. reflexivity. }
  intros s0 s1.
  assert (Hs0 : ATMController.selectedAccount s0 = "").
  { subst s0. rewrite Hret. reflexivity. }
  split; [rewrite Hret; reflexivity|]. split; [exact Hs0|].
  apply no_account_selected. subst s1. apply run_keeps_empty; assumption.
Qed.

(** *** Ejecting *)

(** C6. With a reader whose [ejectCard] returns (it has no failure
    mode), the controller's [ejectCard] returns from every state and
    leaves the session Idle; ejecting again returns too and changes
    neither the session nor the bank nor the dispenser. *)
Theorem ejectCard_idempotent (s : atm) :
  (forall r : R, fst (ICardReader.ejectCard r) = Returns tt) ->
  let s1 := snd (ATMController.ejectCard s) in
  let s2 := snd (ATMController.ejectCard s1) in
  fst (ATMController.ejectCard s) = Returns tt /\
  session s1 = Idle /\
  fst (ATMController.ejectCard s1) = Returns tt /\
  session s2 = session s1 /\
  ATMController.bank s2 = ATMController.bank s1 /\
  ATMController.dispenser s2 = ATMController.dispenser s1.
Proof.
  intros Hrd.
  assert (Hone : forall t : atm,
             fst (ATMController.ejectCard t) = Returns tt /\
             session (snd (ATMController.ejectCard t)) = Idle /\
             ATMController.bank (snd (ATMController.ejectCard t)) = ATMController.bank t /\
             ATMController.dispenser (snd (ATMController.ejectCard t))
             = ATMController.dispenser t).
  { intros t. pose proof (Hrd (ATMController.reader t)) as Hr.
    atm_unfold. destruct (ICardReader.ejectCard (ATMController.reader t)) as [o r'].
    simpl in Hr. subst o. simpl. auto. }
  intros s1 s2.
  destruct (Hone s) as (E1 & E2 & _ & _).
  destruct (Hone s1) as (E3 & E4 & E5 & E6).
  subst s2. rewrite E4. subst s1. rewrite E2. auto 10.
Qed.

(** *** Selected account and authentication *)

Lemma fresh_account_implies_authenticated (b : B) (d : D) (r : R) :
  account_implies_authenticated (ATMController.make b d r).
Proof. intros Hsel. contradiction. Qed.

(** X4. Whatever the collaborators do, every member call keeps
    "an account is selected only in an authenticated session", save an
    [enterPin] that returns false. *)
Lemma account_implies_authenticated_kept (op : ATMController.Op) (s : atm) :
  account_implies_authenticated s ->
  fst (ATMController.perform op s) <> Returns (ATMController.VBool false) ->
  account_implies_authenticated (snd (ATMController.perform op s)).
Proof.
  unfold account_implies_authenticated.
  destruct op; atm_cases; intros Hinv Hret Hsel;
    try contradiction; try (apply Hinv; assumption); try reflexivity.
  - (* enterPin returned what validatePin did *)
    match goal with a : bool |- _ => destruct a; [reflexivity | contradiction] end.
  - (* selectAccount passed its guard *)
    apply negb_false_iff. assumption.
Qed.

(** *** Order of the collaborator calls in [withdraw] *)

Lemma new_calls_app (l k : list Call) : drop (length l) (l ++ k) = k.
Proof. apply drop_app_length. Qed.

Lemma new_calls_nil (l : list Call) : drop (length l) l = [].
Proof. apply drop_all. Qed.

(** C4. A [withdraw] that returns has made exactly four calls through
    its references, in this order: the balance read, the stock check,
    the debit, the dispense instruction.  More generally, in any
    [withdraw] call, returning or not, a dispense instruction is only
    ever issued as the fourth of these calls, for the requested amount,
    after the debit of that amount on the selected account has returned
    normally; the bank is then left in the state the debit produced. *)
Theorem withdraw_debits_before_dispensing (s : atm) (amount : Z) :
  let acct := ATMController.selectedAccount s in
  let s' := snd (ATMController.withdraw amount s) in
  let four := [CGetBalance acct; CHasCash amount;
               CDebit acct amount; CDispenseCash amount] in
  (fst (ATMController.withdraw amount s) = Returns tt -> new_calls s s' = four) /\
  (forall x, CDispenseCash x ∈ new_calls s s' ->
     new_calls s s' = four /\
     exists bal b1 b2,
       IBankGateway.getBalance acct (ATMController.bank s) = (Returns bal, b1) /\
       IBankGateway.debit acct amount b1 = (Returns tt, b2) /\
       ATMController.bank s' = b2).
Proof.
  unfold new_calls. atm_cases;
    rewrite <- ?app_assoc; rewrite ?new_calls_app, ?new_calls_nil; simpl;
    (split; [intros Hret; try discriminate; try reflexivity
            | intros x Hin; repeat (apply elem_of_cons in Hin as [Hin|Hin]; try discriminate);
              try (apply elem_of_nil in Hin; contradiction)]).
  all: split; [reflexivity|].
  all: repeat match goal with u : unit |- _ => destruct u end.
  all: eexists _, _, _; split; [reflexivity|]; split; [eassumption|reflexivity].
Qed.

End Generic.

(** ** The controller over the bank mock *)

Section OverMockBank.
Context {D R : Type}.
Context `{!ICashDispenser.t D, !ICardReader.t R}.

Abbreviation atm_mb := (ATMController.t MockBankGateway.t D R).

(** C5. Over the bank mock, [enterPin] fails with NoCardInserted exactly
    when [cardNumber] is empty.  Otherwise it returns what the bank's
    [validatePin] returns for the held card, having stored that in
    [authenticated] and kept the card; and when that is false, entering
    the PIN the bank has on record for the card next returns true and
    authenticates, still on the same card. *)
Theorem enterPin_validates_and_allows_retry (s : atm_mb) (pin : string) :
  let card := ATMController.cardNumber s in
  let s' := snd (ATMController.enterPin pin s) in
  (fst (ATMController.enterPin pin s) = Throws NoCardInserted <-> card = "") /\
  (card <> "" ->
   exists ok : bool,
     fst (IBankGateway.validatePin card pin (ATMController.bank s)) = Returns ok /\
     fst (ATMController.enterPin pin s) = Returns ok /\
     ATMController.authenticated s' = ok /\
     ATMController.cardNumber s' = card /\
     (ok = false ->
      forall good : string,
        MockBankGateway.pins (ATMController.bank s) !! card = Some good ->
        let s'' := snd (ATMController.enterPin good s') in
        fst (ATMController.enterPin good s') = Returns true /\
        ATMController.authenticated s'' = true /\
        ATMController.cardNumber s'' = card)).
Proof.
  destruct s as [b d r card auth sel log]. simpl.
  destruct card as [|c card]; simpl.
  - split; [split; reflexivity | intros Hne; contradiction].
  - split; [split; discriminate|]. intros _.
    eexists. split; [reflexivity|]. split; [reflexivity|].
    split; [reflexivity|]. split; [reflexivity|].
    intros _ good Hgood. rewrite Hgood.
    rewrite bool_decide_eq_true_2 by reflexivity. auto.
Qed.

(** C10. Over the bank mock, with a non-empty selected account the bank
    has no balance for: [getBalance] and [withdraw] of a positive amount
    end in the exception the bank's own [getBalance] raises, the only
    call [withdraw] has made is that balance read, and neither the bank
    nor the dispenser has changed; [deposit] of a positive [int] returns,
    and the bank now has the account, with the deposited amount as its
    balance. *)
Theorem unknown_account_read_fails_deposit_creates (s : atm_mb) (amount : Z) :
  let acct := ATMController.selectedAccount s in
  acct <> "" ->
  MockBankGateway.balances (ATMController.bank s) !! acct = None ->
  0 < amount <= INT_MAX ->
  let sg := snd (ATMController.getBalance s) in
  let sw := snd (ATMController.withdraw amount s) in
  let sd := snd (ATMController.deposit amount s) in
  fst (IBankGateway.getBalance acct (ATMController.bank s)) = Throws UnknownAccount /\
  (fst (ATMController.getBalance s) = Throws UnknownAccount /\
   ATMController.bank sg = ATMController.bank s) /\
  (fst (ATMController.withdraw amount s) = Throws UnknownAccount /\
   new_calls s sw = [CGetBalance acct] /\
   ATMController.bank sw = ATMController.bank s /\
   ATMController.dispenser sw = ATMController.dispenser s) /\
  (fst (ATMController.deposit amount s) = Returns tt /\
   MockBankGateway.balances (ATMController.bank sd)
   = <[acct := amount]> (MockBankGateway.balances (ATMController.bank s)) /\
   fst (ATMController.getBalance sd) = Returns amount).
Proof.
  destruct s as [b d r card auth sel log]. simpl.
  intros Hsel Hnone [Hpos Hmax].
  assert (Hpos' : (amount <=? 0) = false) by (apply Z.leb_gt; assumption).
  assert (Hwrap : wrap (0 + amount) = amount).
  { rewrite Z.add_0_l. apply wrap_in_range. unfold INT_MIN, INT_MAX in *. lia. }
  destruct sel as [|c sel]; [contradiction|].
  unfold new_calls. atm_unfold. simpl.
  unfold MockBankGateway.getBalance, MockBankGateway.credit, modify. simpl.
  repeat (progress (rewrite ?Hpos', ?Hnone, ?Hwrap; simpl)).
  rewrite lookup_insert_eq, new_calls_app. auto 10.
Qed.

End OverMockBank.

(** ** The controller over the bank and dispenser mocks *)

Section OverMocks.
Context {R : Type}.
Context `{!ICardReader.t R}.

Abbreviation atm_m := (ATMController.t MockBankGateway.t MockCashDispenser.t R).

(** C3. Over the bank and dispenser mocks, [withdraw] fails with
    NoAccountSelected when [selectedAccount] is empty; otherwise with
    InvalidAmount when the amount is not positive; otherwise, [bal]
    being the balance the bank returns for the account, with
    InsufficientFunds exactly when the amount exceeds [bal]; otherwise
    with InsufficientCash exactly when the dispenser's [hasCash] answers
    false; and otherwise it returns. *)
Theorem withdraw_checks_in_order (s : atm_m) (amount : Z) :
  let acct := ATMController.selectedAccount s in
  let o := fst (ATMController.withdraw amount s) in
  (acct = "" -> o = Throws NoAccountSelected) /\
  (acct <> "" -> amount <= 0 -> o = Throws (InvalidAmount "withdraw")) /\
  (acct <> "" -> 0 < amount ->
   forall bal : Z,
     fst (IBankGateway.getBalance acct (ATMController.bank s)) = Returns bal ->
     (o = Throws InsufficientFunds <-> amount > bal) /\
     (amount <= bal ->
      (o = Throws InsufficientCash <->
       fst (ICashDispenser.hasCash amount (ATMController.dispenser s)) = Returns false)) /\
     (amount <= bal ->
      fst (ICashDispenser.hasCash amount (ATMController.dispenser s)) = Returns true ->
      o = Returns tt)).
Proof.
  intros acct o. split; [|split].
  - intros Hsel. subst o. apply no_account_selected in Hsel as (_ & _ & Hw).
    rewrite Hw. reflexivity.
  - intros Hsel Hle. subst o. rewrite withdraw_nonpositive by assumption. reflexivity.
  - intros Hsel Hpos bal. subst o acct.
    destruct s as [b [cash] r card auth sel log]. simpl in *.
    destruct sel as [|c sel]; [contradiction|].
    assert (Hpos' : (amount <=? 0) = false) by (apply Z.leb_gt; assumption).
    intros Hbal. unfold MockBankGateway.getBalance in Hbal.
    destruct (MockBankGateway.balances b !! String c sel) as [bal'|] eqn:Hb;
      simpl in Hbal; [|discriminate].
    injection Hbal as ->.
    atm_unfold. simpl.
    unfold MockBankGateway.getBalance, MockCashDispenser.hasCash,
      MockCashDispenser.dispenseCash, MockBankGateway.debit, bind, gets, modify, throw.
    simpl. repeat (progress (rewrite ?Hpos', ?Hb; simpl)).
    destruct (Z.gtb_spec amount bal) as [Hgt|Hle]; simpl.
    + split; [split; [lia | reflexivity]|]. split; intros; lia.
    + destruct (Z.leb_spec amount cash) as [Hc|Hc]; simpl.
      * assert (Hgt : (amount >? cash) = false)
          by (destruct (Z.gtb_spec amount cash); [lia | reflexivity]).
        rewrite Hgt. simpl.
        split; [split; [discriminate | lia]|].
        split; [intros _; split; discriminate | reflexivity].
      * split; [split; [discriminate | lia]|].
        split; [intros _; split; reflexivity | discriminate].
Qed.

End OverMocks.

(** ** The session of [main], and sessions next to it *)

Example main_passes : Main.main = Some 0.
Proof. vm_compute. reflexivity. Qed.

(** C7. Over the mocks, [main]'s calls observe: the PIN 0000 rejected,
    the PIN 4321 accepted, and after selecting ACC-111 the balance 100;
    after [deposit(50)] the balance 150; [withdraw(70)] returns and the
    balance is 80; [withdraw(200)] then fails with InsufficientFunds. *)
Theorem main_session_observations :
  fst (Main.script Main.fresh)
  = Returns {| Main.wrongPin := false;
               Main.rightPin := true;
               Main.balance0 := 100;
               Main.balance1 := 150;
               Main.balance2 := 80;
               Main.overdraw := Throws InsufficientFunds |}.
Proof. vm_compute. reflexivity. Qed.

(** C1, where the code departs from it. With ACC-111 selected, a further
    [enterPin] with a wrong PIN returns false and clears [authenticated]
    but not [selectedAccount]; the controller then still serves the
    account: [getBalance] returns 100 and [withdraw(70)] returns. *)
Theorem rejected_pin_keeps_selected_account :
  let s := snd (ATMController.enterPin "0000" selected) in
  fst (ATMController.enterPin "0000" selected) = Returns false /\
  ATMController.selectedAccount s = "ACC-111" /\
  ATMController.authenticated s = false /\
  fst (ATMController.getBalance s) = Returns 100 /\
  fst (ATMController.withdraw 70 s) = Returns tt.
Proof. vm_compute. auto. Qed.

(** C2 as stated fails on a controller with no account selected: both
    calls fail with NoAccountSelected, which is not InvalidAmount. *)
Lemma invalid_amount_without_account :
  fst (ATMController.deposit (-5) Main.fresh) = Throws NoAccountSelected /\
  fst (ATMController.deposit (-5) Main.fresh) <> Throws (InvalidAmount "deposit") /\
  fst (ATMController.withdraw 0 Main.fresh) = Throws NoAccountSelected /\
  fst (ATMController.withdraw 0 Main.fresh) <> Throws (InvalidAmount "withdraw").
Proof. vm_compute. repeat split; discriminate. Qed.

Lemma invalid_amount_once_selected_witness :
  ATMController.selectedAccount selected <> "" /\
  ATMController.deposit (-5) selected = (Throws (InvalidAmount "deposit"), selected) /\
  ATMController.withdraw 0 selected = (Throws (InvalidAmount "withdraw"), selected).
Proof.
  assert (Hsel : ATMController.selectedAccount selected <> "")
    by (vm_compute; discriminate).
  split; [exact Hsel | exact (invalid_amount_once_selected selected Hsel)].
Defined.

Lemma empty_account_is_no_account_witness :
  let ops := [ATMController.Deposit 5; ATMController.EnterPin "4321";
              ATMController.SelectAccount ""; ATMController.GetBalance] in
  let s1 := ATMController.run ops (snd (ATMController.selectAccount "" signed_in)) in
  ATMController.authenticated signed_in = true /\
  fst (ATMController.selectAccount "" signed_in) = Returns tt /\
  ATMController.getBalance s1 = (Throws NoAccountSelected, s1) /\
  ATMController.withdraw 10 s1 = (Throws NoAccountSelected, s1).
Proof.
  intros ops s1.
  assert (Hauth : ATMController.authenticated signed_in = true) by reflexivity.
  assert (Hops : forallb selects_nothing ops = true) by reflexivity.
  destruct (empty_account_is_no_account signed_in ops Hauth Hops)
    as (Hret & _ & Hbal & _ & Hwd).
  split; [exact Hauth|]. split; [exact Hret|]. split; [exact Hbal | exact (Hwd 10)].
Defined.

Lemma ejectCard_idempotent_witness :
  let s1 := snd (ATMController.ejectCard selected) in
  let s2 := snd (ATMController.ejectCard s1) in
  (forall r : MockCardReader.t, fst (ICardReader.ejectCard r) = Returns tt) /\
  fst (ATMController.ejectCard selected) = Returns tt /\
  session s1 = Idle /\
  fst (ATMController.ejectCard s1) = Returns tt /\
  session s2 = session s1.
Proof.
  intros s1 s2.
  assert (Hrd : forall r : MockCardReader.t, fst (ICardReader.ejectCard r) = Returns tt)
    by (intros r; reflexivity).
  destruct (ejectCard_idempotent selected Hrd) as (E1 & E2 & E3 & E4 & _).
  split; [exact Hrd|]. split; [exact E1|]. split; [exact E2|].
  split; [exact E3 | exact E4].
Defined.

Lemma unknown_account_read_fails_deposit_creates_witness :
  let s := selected_unknown in
  let sd := snd (ATMController.deposit 25 s) in
  ATMController.selectedAccount s <> "" /\
  MockBankGateway.balances (ATMController.bank s) !! ATMController.selectedAccount s = None /\
  0 < 25 <= INT_MAX /\
  fst (ATMController.getBalance s) = Throws UnknownAccount /\
  fst (ATMController.withdraw 25 s) = Throws UnknownAccount /\
  ATMController.bank (snd (ATMController.withdraw 25 s)) = ATMController.bank s /\
  fst (ATMController.deposit 25 s) = Returns tt /\
  MockBankGateway.balances (ATMController.bank sd) !! "ACC-999" = Some 25.
Proof.
  intros s sd.
  assert (Hsel : ATMController.selectedAccount s <> "") by (vm_compute; discriminate).
  assert (Hnone : MockBankGateway.balances (ATMController.bank s)
                    !! ATMController.selectedAccount s = None) by (vm_compute; reflexivity).
  assert (Hamt : 0 < 25 <= INT_MAX) by (unfold INT_MAX; lia).
  destruct (unknown_account_read_fails_deposit_creates s 25 Hsel Hnone Hamt)
    as (_ & (Hg & _) & (Hw & _ & Hwb & _) & (Hd & Hdb & _)).
  split; [exact Hsel|]. split; [exact Hnone|]. split; [exact Hamt|].
  split; [exact Hg|]. split; [exact Hw|]. split; [exact Hwb|]. split; [exact Hd|].
  subst sd. rewrite Hdb. apply lookup_insert_eq.
Defined.

(** The outcomes of [withdraw] met on the session of [main]: the four
    calls of a withdrawal that returns, and the two refusals that follow
    the balance read. *)
Example withdraw_70_calls :
  new_calls selected (snd (ATMController.withdraw 70 selected))
  = [CGetBalance "ACC-111"; CHasCash 70; CDebit "ACC-111" 70; CDispenseCash 70]
  /\ fst (ATMController.withdraw 70 selected) = Returns tt.
Proof. vm_compute. auto. Qed.

Example withdraw_101_insufficient_funds :
  fst (ATMController.withdraw 101 selected) = Throws InsufficientFunds.
Proof. vm_compute. reflexivity. Qed.

Example withdraw_250_after_deposit_insufficient_cash :
  fst (ATMController.withdraw 250 (snd (ATMController.deposit 200 selected)))
  = Throws InsufficientCash.
Proof. vm_compute. reflexivity. Qed.

(** ** Further properties of the controller over any collaborators *)

Section GenericSession.
Context {B D R : Type}.
Context `{!IBankGateway.t B, !ICashDispenser.t D, !ICardReader.t R}.

Abbreviation atm := (ATMController.t B D R).

(** What a session without card, authentication and account answers. *)
Lemma idle_refusals (s : atm) :
  session s = Idle ->
  (forall pin, ATMController.enterPin pin s = (Throws NoCardInserted, s)) /\
  (forall acctId, ATMController.selectAccount acctId s = (Throws NotAuthenticated, s)) /\
  ATMController.getBalance s = (Throws NoAccountSelected, s) /\
  (forall amount, ATMController.deposit amount s = (Throws NoAccountSelected, s)) /\
  (forall amount, ATMController.withdraw amount s = (Throws NoAccountSelected, s)).
Proof.
  destruct s as [b d r card auth sel log]. unfold session, Idle. simpl.
  intros [= -> -> ->]. repeat split.
Qed.


(** Authentication and account selection both presuppose a card. *)
Lemma card_held_step (op : ATMController.Op) (s : atm) :
  (ATMController.authenticated s = true -> ATMController.cardNumber s <> "") ->
  (ATMController.selectedAccount s <> "" -> ATMController.cardNumber s <> "") ->
  let s' := snd (ATMController.perform op s) in
  (ATMController.authenticated s' = true -> ATMController.cardNumber s' <> "") /\
  (ATMController.selectedAccount s' <> "" -> ATMController.cardNumber s' <> "").
Proof.
  intros Hauth Hsel.
  destruct op; atm_cases; split; intros Hx;
    try (apply Hauth; assumption); try (apply Hsel; assumption);
    try discriminate; try contradiction;
    try (intros Hcard; rewrite Hcard in *; discriminate).
  all: apply Hauth; apply negb_false_iff; assumption.
Qed.

Lemma card_held_run (ops : list ATMController.Op) (s : atm) :
  (ATMController.authenticated s = true -> ATMController.cardNumber s <> "") ->
  (ATMController.selectedAccount s <> "" -> ATMController.cardNumber s <> "") ->
  let s' := ATMController.run ops s in
  (ATMController.authenticated s' = true -> ATMController.cardNumber s' <> "") /\
  (ATMController.selectedAccount s' <> "" -> ATMController.cardNumber s' <> "").
Proof.
  revert s. induction ops as [|op ops IH]; simpl; intros s Hauth Hsel.
  - split; assumption.
  - destruct (card_held_step op s Hauth Hsel) as [Ha Hs]. apply IH; assumption.
Qed.

(** X2. After any sequence of member calls on a newly constructed
    controller, whatever the collaborators answer, [authenticated] is
    only true while a card number is held. *)
Theorem authenticated_implies_card (b : B) (d : D) (r : R) (ops : list ATMController.Op) :
  let s := ATMController.run ops (ATMController.make b d r) in
  ATMController.authenticated s = true -> ATMController.cardNumber s <> "".
Proof.
  apply (card_held_run ops (ATMController.make b d r)); simpl;
    [discriminate | intros Hx; contradiction].
Qed.

(** X3. After any sequence of member calls on a newly constructed
    controller, an account is only selected while a card number is held:
    no balance is read or changed for a session without a card. *)
Theorem account_implies_card (b : B) (d : D) (r : R) (ops : list ATMController.Op) :
  let s := ATMController.run ops (ATMController.make b d r) in
  ATMController.selectedAccount s <> "" -> ATMController.cardNumber s <> "".
Proof.
  apply (card_held_run ops (ATMController.make b d r)); simpl;
    [discriminate | intros Hx; contradiction].
Qed.

(** X12. Whatever member function is called, every bank call it makes
    names the account selected when the call began, which is then
    non-empty, and every amount passed to the bank or the dispenser is
    positive. *)
Theorem calls_concern_selected_account (op : ATMController.Op) (s : atm) (c : Call) :
  c ∈ new_calls s (snd (ATMController.perform op s)) ->
  (forall a, account_of c = Some a ->
             a = ATMController.selectedAccount s /\ a <> "") /\
  (forall n, amount_of c = Some n -> 0 < n).
Proof.
  unfold new_calls.
  destruct op; atm_cases;
    rewrite <- ?app_assoc; rewrite ?new_calls_app, ?new_calls_nil; simpl;
    intros Hin;
    repeat (apply elem_of_cons in Hin as [->|Hin]);
    try (apply elem_of_nil in Hin; contradiction);
    simpl; (split; [intros acc [= <-] | intros amt [= <-]]);
    try (split; [reflexivity | intros Hempty; rewrite Hempty in *; discriminate]);
    try (apply Z.leb_gt; assumption).
Qed.

(** X13. A newly constructed controller refuses everything but a card:
    [enterPin] with NoCardInserted, [selectAccount] with
    NotAuthenticated, [getBalance], [deposit] and [withdraw] with
    NoAccountSelected, each without calling a collaborator or changing
    anything. *)
Theorem fresh_controller_refuses (b : B) (d : D) (r : R) :
  let s := ATMController.make b d r in
  (forall pin, ATMController.enterPin pin s = (Throws NoCardInserted, s)) /\
  (forall acctId, ATMController.selectAccount acctId s = (Throws NotAuthenticated, s)) /\
  ATMController.getBalance s = (Throws NoAccountSelected, s) /\
  (forall amount, ATMController.deposit amount s = (Throws NoAccountSelected, s)) /\
  (forall amount, ATMController.withdraw amount s = (Throws NoAccountSelected, s)).
Proof.
  apply idle_refusals. reflexivity.
Qed.

(** X14. Once [ejectCard] has returned, the session is as good as new:
    [enterPin], [selectAccount], [getBalance], [deposit] and [withdraw]
    are refused with NoCardInserted, NotAuthenticated and
    NoAccountSelected, and change nothing. *)
Theorem ejected_session_refuses (s : atm) :
  fst (ATMController.ejectCard s) = Returns tt ->
  let s' := snd (ATMController.ejectCard s) in
  (forall pin, ATMController.enterPin pin s' = (Throws NoCardInserted, s')) /\
  (forall acctId, ATMController.selectAccount acctId s' = (Throws NotAuthenticated, s')) /\
  ATMController.getBalance s' = (Throws NoAccountSelected, s') /\
  (forall amount, ATMController.deposit amount s' = (Throws NoAccountSelected, s')) /\
  (forall amount, ATMController.withdraw amount s' = (Throws NoAccountSelected, s')).
Proof.
  intros Hret s'. apply idle_refusals. subst s'. revert Hret.
  atm_cases; intros; try discriminate; reflexivity.
Qed.

(** X15. In an authenticated session [selectAccount] stores the
    identifier as given without calling a collaborator, and a later
    selection replaces an earlier one: selecting [a] and then [b] leaves
    exactly what selecting [b] alone leaves. *)
Theorem selectAccount_last_wins (s : atm) (a b : string) :
  ATMController.authenticated s = true ->
  let sb := snd (ATMController.selectAccount b s) in
  ATMController.selectAccount b (snd (ATMController.selectAccount a s))
  = ATMController.selectAccount b s /\
  fst (ATMController.selectAccount b s) = Returns tt /\
  ATMController.selectedAccount sb = b /\
  ATMController.cardNumber sb = ATMController.cardNumber s /\
  ATMController.authenticated sb = true /\
  ATMController.bank sb = ATMController.bank s /\
  ATMController.dispenser sb = ATMController.dispenser s /\
  new_calls s sb = [].
Proof.
  destruct s as [bk d r card auth sel log]. simpl. intros ->.
  unfold new_calls. simpl. rewrite new_calls_nil. repeat split.
Qed.

End GenericSession.

(** ** Further properties of the bank mock and of the controller over it *)

(** X10. For an account the bank has a balance for, a [credit] followed
    by a [debit] of the same amount leaves the bank exactly as it was,
    provided the credited balance is still an [int]. *)
Theorem credit_debit_round_trip (b : MockBankGateway.t) (accountId : string) (bal amount : Z) :
  MockBankGateway.balances b !! accountId = Some bal ->
  INT_MIN <= bal <= INT_MAX ->
  INT_MIN <= bal + amount <= INT_MAX ->
  snd (MockBankGateway.debit accountId amount
         (snd (MockBankGateway.credit accountId amount b))) = b.
Proof.
  intros Hbal Hrange Hsum. destruct b as [pins balances]. simpl in *.
  rewrite Hbal. simpl. rewrite lookup_insert_eq. simpl.
  rewrite insert_insert_eq.
  rewrite (wrap_in_range (bal + amount)) by assumption.
  replace (bal + amount - amount) with bal by lia.
  rewrite wrap_in_range by assumption.
  rewrite insert_id by assumption. reflexivity.
Qed.

Section MoreOverMockBank.
Context {D R : Type}.
Context `{!ICashDispenser.t D, !ICardReader.t R}.

Abbreviation atm_mb := (ATMController.t MockBankGateway.t D R).

(** X5. Over the bank mock, with an account selected that has balance
    [bal], [deposit] of a positive amount that keeps the balance an
    [int] returns after the single call [credit]: the account's balance
    is [bal + amount], every other balance and every PIN is as before,
    session and dispenser are untouched, and [getBalance] now returns
    [bal + amount]. *)
Theorem deposit_credits_selected_account (s : atm_mb) (bal amount : Z) :
  let acct := ATMController.selectedAccount s in
  acct <> "" ->
  MockBankGateway.balances (ATMController.bank s) !! acct = Some bal ->
  0 < amount ->
  INT_MIN <= bal /\ bal + amount <= INT_MAX ->
  let s' := snd (ATMController.deposit amount s) in
  fst (ATMController.deposit amount s) = Returns tt /\
  MockBankGateway.balances (ATMController.bank s')
  = <[acct := bal + amount]> (MockBankGateway.balances (ATMController.bank s)) /\
  MockBankGateway.pins (ATMController.bank s') = MockBankGateway.pins (ATMController.bank s) /\
  session s' = session s /\
  ATMController.dispenser s' = ATMController.dispenser s /\
  new_calls s s' = [CCredit acct amount] /\
  fst (ATMController.getBalance s') = Returns (bal + amount).
Proof.
  destruct s as [b d r card auth sel log]. simpl.
  intros Hsel Hbal Hpos [Hlo Hhi].
  assert (Hpos' : (amount <=? 0) = false) by (apply Z.leb_gt; assumption).
  assert (Hwrap : wrap (bal + amount) = bal + amount).
  { apply wrap_in_range. unfold INT_MIN, INT_MAX in *. lia. }
  destruct sel as [|c sel]; [contradiction|].
  unfold new_calls. atm_unfold. simpl.
  unfold MockBankGateway.getBalance, MockBankGateway.credit, modify. simpl.
  repeat (progress (rewrite ?Hpos', ?Hbal, ?Hwrap; simpl)).
  rewrite lookup_insert_eq, new_calls_app. repeat split.
Qed.

(** X11. Over the bank mock, with a card held, [enterPin] never throws:
    it returns true exactly when the entered PIN is the one the bank has
    on record for that card (so never for a card the bank does not
    know), and false otherwise; the bank's data is not changed. *)
Theorem enterPin_accepts_exactly_recorded_pin (s : atm_mb) (pin : string) :
  let card := ATMController.cardNumber s in
  card <> "" ->
  (fst (ATMController.enterPin pin s) = Returns true <->
   MockBankGateway.pins (ATMController.bank s) !! card = Some pin) /\
  (fst (ATMController.enterPin pin s) = Returns false <->
   MockBankGateway.pins (ATMController.bank s) !! card <> Some pin) /\
  ATMController.bank (snd (ATMController.enterPin pin s)) = ATMController.bank s.
Proof.
  destruct s as [b d r card auth sel log]. simpl. intros Hcard.
  destruct card as [|c card]; [contradiction|]. simpl.
  destruct (MockBankGateway.pins b !! String c card) as [p|]; simpl.
  - destruct (decide (p = pin)) as [->|Hne].
    + rewrite bool_decide_eq_true_2 by reflexivity.
      split; [split; reflexivity|]. split; [|reflexivity].
      split; [discriminate | intros Hx; contradiction].
    + rewrite bool_decide_eq_false_2 by assumption.
      split; [split; [discriminate | intros [= ->]; contradiction]|].
      split; [|reflexivity].
      split; [intros _ [= ->]; contradiction | reflexivity].
  - split; [split; discriminate|]. split; [|reflexivity].
    split; [intros _; discriminate | reflexivity].
Qed.

(** X16. Over the bank mock, the controller's [getBalance] only reads:
    whether it returns or throws, bank, dispenser, reader and session
    are as before, and asking again gives the same answer. *)
Theorem getBalance_reads_only (s : atm_mb) :
  let s' := snd (ATMController.getBalance s) in
  ATMController.bank s' = ATMController.bank s /\
  ATMController.dispenser s' = ATMController.dispenser s /\
  ATMController.reader s' = ATMController.reader s /\
  session s' = session s /\
  fst (ATMController.getBalance s') = fst (ATMController.getBalance s).
Proof.
  destruct s as [b d r card auth sel log]. simpl.
  destruct sel as [|c sel]; simpl; [repeat split|].
  atm_unfold. simpl. unfold MockBankGateway.getBalance.
  destruct (MockBankGateway.balances b !! String c sel) as [bal|] eqn:Hb; simpl;
    rewrite ?Hb; repeat split.
Qed.

End MoreOverMockBank.

(** ** Further properties of the dispenser mock and of the controller over it *)

(** X9. The dispenser mock's two members agree: [hasCash] answers true
    exactly when [dispenseCash] of that amount would return.  A refused
    [dispenseCash] throws and leaves the stock as it was; an accepted
    one of a non-negative amount takes exactly that amount off an [int]
    stock. *)
Theorem hasCash_iff_dispenseCash_returns (d : MockCashDispenser.t) (amount : Z) :
  (fst (MockCashDispenser.hasCash amount d) = Returns true <->
   fst (MockCashDispenser.dispenseCash amount d) = Returns tt) /\
  (fst (MockCashDispenser.hasCash amount d) = Returns false <->
   MockCashDispenser.dispenseCash amount d
   = (Throws (runtime_error "Not enough ATM cash"), d)) /\
  (fst (MockCashDispenser.dispenseCash amount d) = Returns tt ->
   0 <= amount -> MockCashDispenser.cashOnHand d <= INT_MAX ->
   MockCashDispenser.cashOnHand (snd (MockCashDispenser.dispenseCash amount d))
   = MockCashDispenser.cashOnHand d - amount).
Proof.
  destruct d as [cash].
  unfold MockCashDispenser.hasCash, MockCashDispenser.dispenseCash,
    bind, gets, modify, throw. simpl.
  destruct (Z.leb_spec amount cash) as [Hle|Hgt];
    destruct (Z.gtb_spec amount cash) as [Hgt'|Hle']; try lia; simpl.
  - split; [split; reflexivity|]. split; [split; discriminate|].
    intros _ Hpos Hmax. apply wrap_in_range. unfold INT_MIN, INT_MAX in *. lia.
  - split; [split; discriminate|]. split; [split; reflexivity | discriminate].
Qed.

Section OverMockDispenser.
Context {B R : Type}.
Context `{!IBankGateway.t B, !ICardReader.t R}.

Abbreviation atm_md := (ATMController.t B MockCashDispenser.t R).

Lemma cash_step (op : ATMController.Op) (s : atm_md) :
  0 <= MockCashDispenser.cashOnHand (ATMController.dispenser s) <= INT_MAX ->
  0 <= MockCashDispenser.cashOnHand
         (ATMController.dispenser (snd (ATMController.perform op s)))
    <= MockCashDispenser.cashOnHand (ATMController.dispenser s).
Proof.
  destruct s as [b [cash] r card auth sel log]. simpl. intros Hcash.
  destruct op; atm_unfold; simpl;
    unfold MockCashDispenser.hasCash, MockCashDispenser.dispenseCash,
      bind, gets, modify, throw; simpl;
    repeat atm_case; simpl in *; try lia.
  all: repeat match goal with
         | E : (_ <=? _) = false |- _ => apply Z.leb_gt in E
         | E : (_ <=? _) = true |- _ => apply Z.leb_le in E
         | E : negb _ = false |- _ => apply negb_false_iff in E
         | E : (_ >? _) = false |- _ => rewrite Z.gtb_ltb in E; apply Z.ltb_ge in E
         | E : (_ >? _) = true |- _ => rewrite Z.gtb_ltb in E; apply Z.ltb_lt in E
         end.
  all: rewrite wrap_in_range; unfold INT_MIN, INT_MAX in *; lia.
Qed.

(** X8. Over the dispenser mock, with any bank and reader and whatever
    they answer: along any sequence of member calls the stock of cash
    never goes below zero and never grows, starting from any
    non-negative [int] stock. *)
Theorem cash_never_negative_never_grows (ops : list ATMController.Op) (s : atm_md) :
  0 <= MockCashDispenser.cashOnHand (ATMController.dispenser s) <= INT_MAX ->
  0 <= MockCashDispenser.cashOnHand
         (ATMController.dispenser (ATMController.run ops s))
    <= MockCashDispenser.cashOnHand (ATMController.dispenser s).
Proof.
  revert s. induction ops as [|op ops IH]; simpl; intros s Hcash; [lia|].
  pose proof (cash_step op s Hcash) as Hstep.
  assert (Hnext : 0 <= MockCashDispenser.cashOnHand
                         (ATMController.dispenser (snd (ATMController.perform op s)))
                    <= INT_MAX) by lia.
  specialize (IH _ Hnext). lia.
Qed.

End OverMockDispenser.

(** ** Further properties of the controller over bank and dispenser mocks *)

Section MoreOverMocks.
Context {R : Type}.
Context `{!ICardReader.t R}.

Abbreviation atm_m := (ATMController.t MockBankGateway.t MockCashDispenser.t R).

(** X6. Over the bank and dispenser mocks, a [withdraw] of a positive
    amount covered both by the selected account's balance [bal] and by
    the stock returns, takes the amount off that balance and off the
    stock, and leaves every other balance, the PINs and the session as
    they were. *)
Theorem withdraw_debits_and_dispenses (s : atm_m) (bal amount : Z) :
  let acct := ATMController.selectedAccount s in
  let cash := MockCashDispenser.cashOnHand (ATMController.dispenser s) in
  acct <> "" ->
  MockBankGateway.balances (ATMController.bank s) !! acct = Some bal ->
  0 < amount <= bal ->
  amount <= cash ->
  bal <= INT_MAX /\ cash <= INT_MAX ->
  let s' := snd (ATMController.withdraw amount s) in
  fst (ATMController.withdraw amount s) = Returns tt /\
  MockBankGateway.balances (ATMController.bank s')
  = <[acct := bal - amount]> (MockBankGateway.balances (ATMController.bank s)) /\
  MockBankGateway.pins (ATMController.bank s') = MockBankGateway.pins (ATMController.bank s) /\
  MockCashDispenser.cashOnHand (ATMController.dispenser s') = cash - amount /\
  session s' = session s.
Proof.
  destruct s as [b [cash] r card auth sel log]. simpl.
  intros Hsel Hbal [Hpos Hle] Hcash [Hbmax Hcmax].
  assert (E1 : (amount <=? 0) = false) by (apply Z.leb_gt; assumption).
  assert (E2 : (amount >? bal) = false)
    by (destruct (Z.gtb_spec amount bal); [lia | reflexivity]).
  assert (E3 : (amount <=? cash) = true) by (apply Z.leb_le; assumption).
  assert (E4 : (amount >? cash) = false)
    by (destruct (Z.gtb_spec amount cash); [lia | reflexivity]).
  assert (W1 : wrap (bal - amount) = bal - amount)
    by (apply wrap_in_range; unfold INT_MIN, INT_MAX in *; lia).
  assert (W2 : wrap (cash - amount) = cash - amount)
    by (apply wrap_in_range; unfold INT_MIN, INT_MAX in *; lia).
  destruct sel as [|c sel]; [contradiction|].
  atm_unfold. simpl.
  unfold MockBankGateway.getBalance, MockCashDispenser.hasCash,
    MockCashDispenser.dispenseCash, MockBankGateway.debit, bind, gets, modify, throw.
  simpl. repeat (progress (rewrite ?E1, ?Hbal, ?E2, ?E3, ?E4, ?W1, ?W2; simpl)).
  repeat split.
Qed.

(** X7. Over the bank and dispenser mocks a [withdraw] that throws has
    changed nothing: balances, PINs, stock and session are as before. *)
Theorem failed_withdraw_changes_nothing (s : atm_m) (amount : Z) (e : exn) :
  fst (ATMController.withdraw amount s) = Throws e ->
  let s' := snd (ATMController.withdraw amount s) in
  ATMController.bank s' = ATMController.bank s /\
  ATMController.dispenser s' = ATMController.dispenser s /\
  session s' = session s.
Proof.
  destruct s as [b [cash] r card auth sel log].
  atm_unfold. simpl.
  unfold MockBankGateway.getBalance, MockCashDispenser.hasCash,
    MockCashDispenser.dispenseCash, MockBankGateway.debit, bind, gets, modify, throw.
  simpl.
  destruct (str_empty sel); simpl; [auto|].
  destruct (amount <=? 0); simpl; [auto|].
  destruct (MockBankGateway.balances b !! sel) as [bal|]; simpl; [|auto].
  destruct (amount >? bal); simpl; [auto|].
  destruct (Z.leb_spec amount cash) as [Hle|Hgt]; simpl; [|auto].
  destruct (Z.gtb_spec amount cash) as [Hgt|_]; [lia|]. simpl.
  discriminate.
Qed.

End MoreOverMocks.

(** ** The further properties on the session of [main] *)


Lemma authenticated_implies_card_witness :
  ATMController.authenticated selected = true /\
  ATMController.cardNumber selected <> "".
Proof.
  assert (Hauth : ATMController.authenticated selected = true) by reflexivity.
  split; [exact Hauth|].
  exact (authenticated_implies_card
           MockBankGateway.make MockCashDispenser.make MockCardReader.make
           [ATMController.InsertCard; ATMController.EnterPin "4321";
            ATMController.SelectAccount "ACC-111"] Hauth).
Defined.

Lemma account_implies_card_witness :
  ATMController.selectedAccount selected <> "" /\
  ATMController.cardNumber selected <> "".
Proof.
  assert (Hsel : ATMController.selectedAccount selected <> "")
    by (vm_compute; discriminate).
  split; [exact Hsel|].
  exact (account_implies_card
           MockBankGateway.make MockCashDispenser.make MockCardReader.make
           [ATMController.InsertCard; ATMController.EnterPin "4321";
            ATMController.SelectAccount "ACC-111"] Hsel).
Defined.

Lemma account_implies_authenticated_kept_witness :
  account_implies_authenticated selected /\
  fst (ATMController.perform (ATMController.Deposit 50) selected)
  <> Returns (ATMController.VBool false) /\
  account_implies_authenticated
    (snd (ATMController.perform (ATMController.Deposit 50) selected)).
Proof.
  assert (Hinv : account_implies_authenticated selected)
    by (intros _; reflexivity).
  assert (Hret : fst (ATMController.perform (ATMController.Deposit 50) selected)
                 <> Returns (ATMController.VBool false))
    by (vm_compute; discriminate).
  split; [exact Hinv|]. split; [exact Hret|].
  exact (account_implies_authenticated_kept (ATMController.Deposit 50) selected Hinv Hret).
Defined.

Lemma deposit_credits_selected_account_witness :
  let s' := snd (ATMController.deposit 50 selected) in
  ATMController.selectedAccount selected <> "" /\
  MockBankGateway.balances (ATMController.bank selected)
    !! ATMController.selectedAccount selected = Some 100 /\
  fst (ATMController.deposit 50 selected) = Returns tt /\
  fst (ATMController.getBalance s') = Returns (100 + 50).
Proof.
  intros s'.
  assert (Hsel : ATMController.selectedAccount selected <> "")
    by (vm_compute; discriminate).
  assert (Hbal : MockBankGateway.balances (ATMController.bank selected)
                   !! ATMController.selectedAccount selected = Some 100)
    by (vm_compute; reflexivity).
  assert (Hpos : 0 < 50) by lia.
  assert (Hrange : INT_MIN <= 100 /\ 100 + 50 <= INT_MAX)
    by (unfold INT_MIN, INT_MAX; lia).
  destruct (deposit_credits_selected_account selected 100 50 Hsel Hbal Hpos Hrange)
    as (E1 & _ & _ & _ & _ & _ & E2).
  split; [exact Hsel|]. split; [exact Hbal|]. split; [exact E1 | exact E2].
Defined.

Lemma withdraw_debits_and_dispenses_witness :
  let s' := snd (ATMController.withdraw 70 selected) in
  ATMController.selectedAccount selected <> "" /\
  MockBankGateway.balances (ATMController.bank selected)
    !! ATMController.selectedAccount selected = Some 100 /\
  70 <= MockCashDispenser.cashOnHand (ATMController.dispenser selected) /\
  fst (ATMController.withdraw 70 selected) = Returns tt /\
  MockCashDispenser.cashOnHand (ATMController.dispenser s')
  = MockCashDispenser.cashOnHand (ATMController.dispenser selected) - 70.
Proof.
  intros s'.
  assert (Hsel : ATMController.selectedAccount selected <> "")
    by (vm_compute; discriminate).
  assert (Hbal : MockBankGateway.balances (ATMController.bank selected)
                   !! ATMController.selectedAccount selected = Some 100)
    by (vm_compute; reflexivity).
  assert (Hamt : 0 < 70 <= 100) by lia.
  assert (Hcash : 70 <= MockCashDispenser.cashOnHand (ATMController.dispenser selected))
    by (vm_compute; discriminate).
  assert (Hmax : 100 <= INT_MAX /\
                 MockCashDispenser.cashOnHand (ATMController.dispenser selected) <= INT_MAX)
    by (split; vm_compute; discriminate).
  destruct (withdraw_debits_and_dispenses selected 100 70 Hsel Hbal Hamt Hcash Hmax)
    as (E1 & _ & _ & E2 & _).
  split; [exact Hsel|]. split; [exact Hbal|]. split; [exact Hcash|].
  split; [exact E1 | exact E2].
Defined.

Lemma failed_withdraw_changes_nothing_witness :
  let s' := snd (ATMController.withdraw 200 selected) in
  fst (ATMController.withdraw 200 selected) = Throws InsufficientFunds /\
  ATMController.bank s' = ATMController.bank selected /\
  ATMController.dispenser s' = ATMController.dispenser selected.
Proof.
  intros s'.
  assert (Hthrow : fst (ATMController.withdraw 200 selected) = Throws InsufficientFunds)
    by (vm_compute; reflexivity).
  destruct (failed_withdraw_changes_nothing selected 200 InsufficientFunds Hthrow)
    as (E1 & E2 & _).
  split; [exact Hthrow|]. split; [exact E1 | exact E2].
Defined.

Lemma cash_never_negative_never_grows_witness :
  let ops := [ATMController.InsertCard; ATMController.EnterPin "4321";
              ATMController.SelectAccount "ACC-111"; ATMController.Withdraw 70;
              ATMController.Withdraw 200; ATMController.EjectCard] in
  0 <= MockCashDispenser.cashOnHand (ATMController.dispenser Main.fresh) <= INT_MAX /\
  0 <= MockCashDispenser.cashOnHand
         (ATMController.dispenser (ATMController.run ops Main.fresh))
    <= MockCashDispenser.cashOnHand (ATMController.dispenser Main.fresh).
Proof.
  intros ops.
  assert (Hcash : 0 <= MockCashDispenser.cashOnHand (ATMController.dispenser Main.fresh)
                    <= INT_MAX)
    by (split; vm_compute; discriminate).
  split; [exact Hcash | exact (cash_never_negative_never_grows ops Main.fresh Hcash)].
Defined.

Lemma credit_debit_round_trip_witness :
  MockBankGateway.balances MockBankGateway.make !! "ACC-111" = Some 100 /\
  snd (MockBankGateway.debit "ACC-111" 50
         (snd (MockBankGateway.credit "ACC-111" 50 MockBankGateway.make)))
  = MockBankGateway.make.
Proof.
  assert (Hbal : MockBankGateway.balances MockBankGateway.make !! "ACC-111" = Some 100)
    by (vm_compute; reflexivity).
  assert (Hr1 : INT_MIN <= 100 <= INT_MAX) by (unfold INT_MIN, INT_MAX; lia).
  assert (Hr2 : INT_MIN <= 100 + 50 <= INT_MAX) by (unfold INT_MIN, INT_MAX; lia).
  split; [exact Hbal|].
  exact (credit_debit_round_trip MockBankGateway.make "ACC-111" 100 50 Hbal Hr1 Hr2).
Defined.

Lemma enterPin_accepts_exactly_recorded_pin_witness :
  ATMController.cardNumber selected <> "" /\
  (fst (ATMController.enterPin "4321" selected) = Returns true <->
   MockBankGateway.pins (ATMController.bank selected)
     !! ATMController.cardNumber selected = Some "4321").
Proof.
  assert (Hcard : ATMController.cardNumber selected <> "")
    by (vm_compute; discriminate).
  destruct (enterPin_accepts_exactly_recorded_pin selected "4321" Hcard) as (E1 & _ & _).
  split; [exact Hcard | exact E1].
Defined.

Lemma calls_concern_selected_account_witness :
  let c := CDebit "ACC-111" 70 in
  c ∈ new_calls selected
        (snd (ATMController.perform (ATMController.Withdraw 70) selected)) /\
  (forall a, account_of c = Some a ->
             a = ATMController.selectedAccount selected /\ a <> "") /\
  (forall n, amount_of c = Some n -> 0 < n).
Proof.
  intros c.
  assert (Hin : c ∈ new_calls selected
                      (snd (ATMController.perform (ATMController.Withdraw 70) selected))).
  { apply list_elem_of_In. vm_compute. auto. }
  split; [exact Hin|].
  exact (calls_concern_selected_account (ATMController.Withdraw 70) selected c Hin).
Defined.

Lemma ejected_session_refuses_witness :
  let s' := snd (ATMController.ejectCard selected) in
  fst (ATMController.ejectCard selected) = Returns tt /\
  ATMController.enterPin "4321" s' = (Throws NoCardInserted, s') /\
  ATMController.getBalance s' = (Throws NoAccountSelected, s').
Proof.
  intros s'.
  assert (Hret : fst (ATMController.ejectCard selected) = Returns tt) by reflexivity.
  destruct (ejected_session_refuses selected Hret) as (E1 & _ & E2 & _).
  split; [exact Hret|]. split; [exact (E1 "4321") | exact E2].
Defined.

Lemma selectAccount_last_wins_witness :
  ATMController.authenticated signed_in = true /\
  ATMController.selectAccount "ACC-111"
    (snd (ATMController.selectAccount "ACC-999" signed_in))
  = ATMController.selectAccount "ACC-111" signed_in /\
  ATMController.selectedAccount (snd (ATMController.selectAccount "ACC-111" signed_in))
  = "ACC-111".
Proof.
  assert (Hauth : ATMController.authenticated signed_in = true) by reflexivity.
  destruct (selectAccount_last_wins signed_in "ACC-999" "ACC-111" Hauth)
    as (E1 & _ & E2 & _).
  split; [exact Hauth|]. split; [exact E1 | exact E2].
Defined.
